(** * ab-optix: the experiment engine of [src/engine.py]

    A shallow embedding of [ExperimentEngine.calculate_sample_size] and
    [ExperimentEngine.analyze_results].  Python floats are IEEE binary64
    numbers, modelled by Rocq's primitive floats; Python exceptions are the
    error side of a small result monad; the keyword dictionary of
    [analyze_results] is a finite map from names to Python values.  The
    routines of numpy, scipy and statsmodels that the engine calls are an
    interface ([StatsLib]) the engine is parameterised by. *)

From Stdlib Require Import ZArith QArith Qround Floats String Lia.
From stdpp Require Import base option gmap strings.

Set Warnings "-inexact-float".
Local Open Scope Z_scope.

(** ** Python exceptions and the result monad *)

Module Py.

(** The subclasses of [Exception] the engine and its libraries can raise. *)
Inductive exn : Type :=
| ValueError (msg : string)
| ZeroDivisionError
| OverflowError
| TypeError
| KeyError (key : string)
| UnboundLocalError (var : string)
| OtherError (name : string).

Inductive result (A : Type) : Type :=
| Ok (a : A)
| Raise (e : exn).
Arguments Ok {A} a.
Arguments Raise {A} e.

#[global] Instance result_ret : MRet result := fun A a => Ok a.
#[global] Instance result_fmap : FMap result := fun A B f m =>
  match m with
  | Ok a => Ok (f a)
  | Raise e => Raise e
  end.
#[global] Instance result_bind : MBind result := fun A B k m =>
  match m with
  | Ok a => k a
  | Raise e => Raise e
  end.

(** A Python value as it can arrive in a keyword argument. *)
Inductive pyval : Type :=
| PNone
| PInt (z : Z)
| PFloat (f : float)
| PStr (s : string).

(** *** Exact values of floats *)

(** The rational a finite float denotes (0 for the values that denote none). *)
Definition SF2Q (x : spec_float) : Q :=
  match x with
  | S754_finite s m e => inject_Z (if s then Zneg m else Zpos m) * Qpower 2 e
  | _ => 0
  end.

Definition F2Q (x : float) : Q := SF2Q (Prim2SF x).

Definition Z2SF (z : Z) : spec_float :=
  match z with
  | Z0 => S754_zero false
  | Zpos p => S754_finite false p 0
  | Zneg p => S754_finite true p 0
  end.

(** Rounding a rational to the nearest integer, ties to even. *)
Definition round_half_even (q : Q) : Z :=
  let f := Qfloor q in
  match Qcompare (q - inject_Z f) (1 # 2) with
  | Lt => f
  | Gt => f + 1
  | Eq => if Z.even f then f else f + 1
  end.

(** *** Python's numeric operations *)

(** [float(z)] for an int [z]: the nearest double, or OverflowError. *)
Definition float_of_int (z : Z) : result float :=
  match binary_normalize prec emax z 0 false with
  | S754_infinity _ => Raise OverflowError
  | sf => Ok (SF2Prim sf)
  end.

(** [x / y] on two floats: Python raises where IEEE would answer inf or nan. *)
Definition float_div (x y : float) : result float :=
  if PrimFloat.eqb y 0 then Raise ZeroDivisionError else Ok (x / y)%float.

(** [x / n] for a float [x] and an int [n]: [n] is converted first. *)
Definition float_div_int (x : float) (n : Z) : result float :=
  y ← float_of_int n; float_div x y.

(** [a / b] on two ints: the correctly rounded quotient. *)
Definition int_truediv (a b : Z) : result float :=
  if Z.eqb b 0 then Raise ZeroDivisionError
  else match SFdiv prec emax (Z2SF a) (Z2SF b) with
       | S754_infinity _ => Raise OverflowError
       | sf => Ok (SF2Prim sf)
       end.

Definition to_float (v : pyval) : result float :=
  match v with
  | PInt z => float_of_int z
  | PFloat f => Ok f
  | _ => Raise TypeError
  end.

(** [a / b] *)
Definition truediv (a b : pyval) : result pyval :=
  match a, b with
  | PInt x, PInt y => PFloat <$> int_truediv x y
  | PInt _, PFloat _ | PFloat _, PInt _ | PFloat _, PFloat _ =>
      x ← to_float a; y ← to_float b; PFloat <$> float_div x y
  | _, _ => Raise TypeError
  end.

(** [a - b] *)
Definition sub (a b : pyval) : result pyval :=
  match a, b with
  | PInt x, PInt y => Ok (PInt (x - y))
  | PInt _, PFloat _ | PFloat _, PInt _ | PFloat _, PFloat _ =>
      x ← to_float a; y ← to_float b; Ok (PFloat (x - y)%float)
  | _, _ => Raise TypeError
  end.

(** [round(x, 4)] on a float: the exact value is rounded to four decimals,
    ties to even, and the decimal is read back as the nearest double. *)
Definition round4_float (x : float) : float :=
  match Prim2SF x with
  | S754_finite s m e =>
      match round_half_even (SF2Q (S754_finite false m e) * 10000) with
      | Zpos k => SF2Prim (SFdiv prec emax (S754_finite s k 0) (S754_finite false 10000 0))
      | _ => SF2Prim (S754_zero s)
      end
  | _ => x
  end.

(** [round(v, 4)]: an int is returned as it is. *)
Definition round4 (v : pyval) : result pyval :=
  match v with
  | PInt z => Ok (PInt z)
  | PFloat f => Ok (PFloat (round4_float f))
  | _ => Raise TypeError
  end.

(** [int(np.ceil(x))]: the least integer not below [x]. *)
Definition int_of_ceil (x : float) : result Z :=
  match Prim2SF x with
  | S754_nan => Raise (ValueError "cannot convert float NaN to integer")
  | S754_infinity _ => Raise OverflowError
  | sf => Ok (Qceiling (SF2Q sf))
  end.

(** [kwargs[key]] *)
Definition getitem (kwargs : gmap string pyval) (key : string) : result pyval :=
  match kwargs !! key with
  | Some v => Ok v
  | None => Raise (KeyError key)
  end.

End Py.
Import Py.

(** ** The statistics libraries

    What the engine imports from statsmodels, scipy and numpy.  Each routine
    either returns or raises; the engine fixes the remaining arguments
    ([alternative='larger'], [equal_var=False], [alternative='greater'],
    four decimals). *)

Class StatsLib : Type := {
  (** [proportion_effectsize(prop1, prop2)] *)
  proportion_effectsize : float -> float -> result float;
  (** [NormalIndPower().solve_nobs_two_indep(effect_size, alpha, power, ratio)] *)
  solve_nobs_two_indep : float -> float -> float -> float -> result float;
  (** [proportions_ztest(count=[a, b], nobs=[c, d])]: statistic and p-value *)
  proportions_ztest : pyval * pyval -> pyval * pyval -> result (float * float);
  (** [ttest_ind_from_stats(mean1, std1, nobs1, mean2, std2, nobs2)] *)
  ttest_ind_from_stats :
    pyval -> pyval -> pyval -> pyval -> pyval -> pyval -> result (float * float);
  (** [round(p, 4)] on a numpy float64 *)
  float64_round4 : float -> float
}.

(** ** The engine *)

Record sample_size : Type := {
  control_sample_size : Z;
  variant_sample_size_per_variant : Z
}.

Record analysis : Type := {
  is_significant : Z;
  p_value : float;
  observed_diff : pyval
}.

(** [mde_mapping = {'cr': 0.05, 'epc': 0.10}] *)
Definition mde_mapping : gmap string float :=
  {[ "cr"%string := 0.05%float; "epc"%string := 0.10%float ]}.

(** [0 < x < 1] *)
Definition in_open_unit (x : float) : bool :=
  (PrimFloat.ltb 0 x && PrimFloat.ltb x 1)%bool.

(** [not std_dev_control] for an optional float: None and zero are falsy. *)
Definition falsy (x : option float) : bool :=
  match x with
  | None => true
  | Some f => PrimFloat.eqb f 0
  end.

Definition msg_power_alpha : string := "Power and alpha must be between 0 and 1.".
Definition msg_unknown (sm_type : string) : string := "Unknown sm_type: " ++ sm_type.
Definition msg_std_required : string := "std_dev_control is required for EPC calculations.".
Definition msg_bad_type : string := "sm_type must be 'cr' or 'epc'".

Section Engine.
Context {L : StatsLib}.

(** The effect size of lines 55-62. *)
Definition effect_size_of (sm_type : string) (sm_control mde_absolute : float)
    (std_dev_control : option float) : result float :=
  if String.eqb sm_type "cr" then
    proportion_effectsize sm_control (sm_control + mde_absolute)%float
  else if String.eqb sm_type "epc" then
    match std_dev_control with
    | Some std =>
        if falsy (Some std) then Raise (ValueError msg_std_required)
        else float_div mde_absolute std
    | None => Raise (ValueError msg_std_required)
    end
  else Raise (ValueError msg_bad_type).

(** [ExperimentEngine.calculate_sample_size] *)
Definition calculate_sample_size (sm_type : string) (sm_control : float)
    (std_dev_control mde_relative : option float)
    (power alpha control_traffic_share : float) (num_variants : Z)
    : result sample_size :=
  if negb (in_open_unit power && in_open_unit alpha) then
    Raise (ValueError msg_power_alpha)
  else
    adjusted_alpha ← float_div_int alpha num_variants;
    mde_relative ←
      match mde_relative with
      | Some m => Ok m
      | None =>
          match mde_mapping !! sm_type with
          | Some m => Ok m
          | None => Raise (ValueError (msg_unknown sm_type))
          end
      end;
    let mde_absolute := (sm_control * mde_relative)%float in
    variant_share ← float_div_int (1.0 - control_traffic_share)%float num_variants;
    ratio ← float_div variant_share control_traffic_share;
    effect_size ← effect_size_of sm_type sm_control mde_absolute std_dev_control;
    n_control ← solve_nobs_two_indep effect_size adjusted_alpha power ratio;
    c ← int_of_ceil n_control;
    v ← int_of_ceil (n_control * ratio)%float;
    Ok {| control_sample_size := c; variant_sample_size_per_variant := v |}.

(** The two branches of [analyze_results]: the statistic, the p-value and the
    observed difference, or [None] when neither branch ran and the local
    names stay unbound. *)
Definition run_test (sm_type : string) (kwargs : gmap string pyval)
    : result (option (float * float * pyval)) :=
  if String.eqb sm_type "cr" then
    variant_conv ← getitem kwargs "variant_conv";
    control_conv ← getitem kwargs "control_conv";
    variant_n ← getitem kwargs "variant_n";
    control_n ← getitem kwargs "control_n";
    '(stat, p_val) ← proportions_ztest (variant_conv, control_conv) (variant_n, control_n);
    variant_conv ← getitem kwargs "variant_conv";
    variant_n ← getitem kwargs "variant_n";
    variant_rate ← truediv variant_conv variant_n;
    control_conv ← getitem kwargs "control_conv";
    control_n ← getitem kwargs "control_n";
    control_rate ← truediv control_conv control_n;
    diff ← sub variant_rate control_rate;
    Ok (Some (stat, p_val, diff))
  else if String.eqb sm_type "epc" then
    v_mean ← getitem kwargs "v_mean";
    v_std ← getitem kwargs "v_std";
    v_n ← getitem kwargs "v_n";
    c_mean ← getitem kwargs "c_mean";
    c_std ← getitem kwargs "c_std";
    c_n ← getitem kwargs "c_n";
    '(stat, p_val) ← ttest_ind_from_stats v_mean v_std v_n c_mean c_std c_n;
    v_mean ← getitem kwargs "v_mean";
    c_mean ← getitem kwargs "c_mean";
    diff ← sub v_mean c_mean;
    Ok (Some (stat, p_val, diff))
  else Ok None.

(** The body of the [try] block. *)
Definition analyze_body (sm_type : string) (alpha : float)
    (kwargs : gmap string pyval) : result analysis :=
  bound ← run_test sm_type kwargs;
  match bound with
  | None => Raise (UnboundLocalError "p_val")
  | Some (stat, p_val, diff) =>
      let verdict := if PrimFloat.ltb p_val alpha then 1 else 0 in
      let p := float64_round4 p_val in
      d ← round4 diff;
      Ok {| is_significant := verdict; p_value := p; observed_diff := d |}
  end.

(** [ExperimentEngine.analyze_results]: what the call hands back to its
    caller ([Ok None] is Python's [None]) and the errors it logged. *)
Definition analyze_results (sm_type : string) (alpha : float)
    (kwargs : gmap string pyval) : result (option analysis) * list exn :=
  match analyze_body sm_type alpha kwargs with
  | Ok r => (Ok (Some r), [])
  | Raise e => (Ok None, [e])
  end.

(** The test routine the engine called returned statistic and p-value [sp]. *)
Definition test_returned (sm_type : string) (kwargs : gmap string pyval)
    (sp : float * float) : Prop :=
  (sm_type = "cr"%string /\
   exists variant_conv control_conv variant_n control_n,
     kwargs !! "variant_conv"%string = Some variant_conv /\
     kwargs !! "control_conv"%string = Some control_conv /\
     kwargs !! "variant_n"%string = Some variant_n /\
     kwargs !! "control_n"%string = Some control_n /\
     proportions_ztest (variant_conv, control_conv) (variant_n, control_n) = Ok sp)
  \/
  (sm_type = "epc"%string /\
   exists v_mean v_std v_n c_mean c_std c_n,
     kwargs !! "v_mean"%string = Some v_mean /\
     kwargs !! "v_std"%string = Some v_std /\
     kwargs !! "v_n"%string = Some v_n /\
     kwargs !! "c_mean"%string = Some c_mean /\
     kwargs !! "c_std"%string = Some c_std /\
     kwargs !! "c_n"%string = Some c_n /\
     ttest_ind_from_stats v_mean v_std v_n c_mean c_std c_n = Ok sp).

End Engine.

(** ** A reference library

    The engine's theorems hold for every [StatsLib].  Concrete runs need one:
    [SpecModel.lib] follows the formulas the specification gives for the
    test routines and the effect size, in binary64 arithmetic, and answers
    only where those formulas determine the answer without a transcendental
    function; its solver is what statsmodels has under the name the engine
    uses. *)

Module SpecModel.

Definition not_tabulated {A} : result A := Raise (OtherError "NotTabulated").

(** Modelled from the spec: the one-sided p-value of a test statistic, which
    scipy computes and the sources do not hold.  An undefined statistic (0/0)
    has an undefined p-value, a zero statistic has p-value one half, and an
    infinite one has p-value 0 or 1; elsewhere the model gives no answer. *)
Definition upper_tail (t : float) : result float :=
  if PrimFloat.is_nan t then Ok nan
  else if PrimFloat.eqb t 0 then Ok 0.5%float
  else if PrimFloat.eqb t infinity then Ok 0%float
  else if PrimFloat.eqb t neg_infinity then Ok 1%float
  else not_tabulated.

(** The solver line 64 asks for.  [NormalIndPower] of statsmodels defines
    [power] and [solve_power] and no [solve_nobs_two_indep]: looking the
    method up raises AttributeError before any argument is used. *)
Definition solve_nobs (d alpha power ratio : float) : result float :=
  Raise (OtherError "AttributeError").

(** Modelled from the spec: the arcsine effect size of step 4,
    2 asin(sqrt p1) - 2 asin(sqrt p2), answered where the two proportions
    coincide. *)
Definition effectsize (p1 p2 : float) : result float :=
  if PrimFloat.eqb p1 p2 then Ok 0%float else not_tabulated.

(** Modelled from the spec: the pooled two-proportion z-test of 4.2 on
    counts [a], [b] out of [c], [d] observations. *)
Definition ztest (count nobs : pyval * pyval) : result (float * float) :=
  a ← to_float count.1; b ← to_float count.2;
  c ← to_float nobs.1; d ← to_float nobs.2;
  let diff := (a / c - b / d)%float in
  let p_pooled := ((a + b) / (c + d))%float in
  let var := (p_pooled * (1 - p_pooled) * (1 / c + 1 / d))%float in
  let z := (diff / PrimFloat.sqrt var)%float in
  p ← upper_tail z;
  Ok (z, p).

(** Modelled from the spec: Welch's t statistic of 4.2 from the summary
    statistics, (mean1 - mean2) / sqrt(std1^2/n1 + std2^2/n2). *)
Definition welch (mean1 std1 nobs1 mean2 std2 nobs2 : pyval) : result (float * float) :=
  m1 ← to_float mean1; s1 ← to_float std1; n1 ← to_float nobs1;
  m2 ← to_float mean2; s2 ← to_float std2; n2 ← to_float nobs2;
  let t := ((m1 - m2) / PrimFloat.sqrt (s1 * s1 / n1 + s2 * s2 / n2))%float in
  p ← upper_tail t;
  Ok (t, p).

(** Rounding a float to an integral float, ties to even ([np.rint]). *)
Definition rint (x : float) : float :=
  match Prim2SF x with
  | S754_finite s m e =>
      if 0 <=? e then x
      else match round_half_even (SF2Q (S754_finite false m e)) with
           | Zpos k => SF2Prim (S754_finite s k 0)
           | _ => SF2Prim (S754_zero s)
           end
  | _ => x
  end.

(** Modelled from the spec: rounding to four decimals as numpy does it,
    scale, round to an integer, scale back. *)
Definition np_round4 (x : float) : float := (rint (x * 10000) / 10000)%float.

Definition lib : StatsLib := {|
  proportion_effectsize := effectsize;
  solve_nobs_two_indep := solve_nobs;
  proportions_ztest := ztest;
  ttest_ind_from_stats := welch;
  float64_round4 := np_round4
|}.

End SpecModel.

(** ** Predicates of the statements *)

(** An int a float can be divided by: it converts to a float, and not to zero. *)
Definition usable_divisor (n : Z) : bool :=
  match float_of_int n with
  | Ok k => negb (PrimFloat.eqb k 0)
  | Raise _ => false
  end.

(** An observation count that is zero, as an int or as a float. *)
Definition zero_count (v : pyval) : bool :=
  match v with
  | PInt z => Z.eqb z 0
  | PFloat f => PrimFloat.eqb f 0
  | _ => false
  end.

(** A keyword dictionary from its items. *)
Definition kw (items : list (string * pyval)) : gmap string pyval := list_to_map items.

(** The keyword arguments of the two kinds of analysis request. *)
Definition epc_kwargs (c_mean c_std : float) (c_n : Z) (v_mean v_std : float) (v_n : Z)
    : gmap string pyval :=
  kw [("c_mean"%string, PFloat c_mean); ("c_std"%string, PFloat c_std);
      ("c_n"%string, PInt c_n); ("v_mean"%string, PFloat v_mean);
      ("v_std"%string, PFloat v_std); ("v_n"%string, PInt v_n)].

Definition cr_kwargs (control_n control_conv variant_n variant_conv : Z)
    : gmap string pyval :=
  kw [("control_n"%string, PInt control_n); ("control_conv"%string, PInt control_conv);
      ("variant_n"%string, PInt variant_n); ("variant_conv"%string, PInt variant_conv)].

(** The fields a request is read from, in the order the code looks them up
    (lines 87-88 and 96-97); a metric type that runs no test reads none. *)
Definition cr_fields : list string :=
  ["variant_conv"; "control_conv"; "variant_n"; "control_n"]%string.

Definition epc_fields : list string :=
  ["v_mean"; "v_std"; "v_n"; "c_mean"; "c_std"; "c_n"]%string.

Definition fields_of (sm_type : string) : list string :=
  if String.eqb sm_type "cr" then cr_fields
  else if String.eqb sm_type "epc" then epc_fields
  else [].

(** The first of [keys] that [kwargs] does not hold. *)
Fixpoint first_missing (kwargs : gmap string pyval) (keys : list string) : option string :=
  match keys with
  | [] => None
  | k :: rest =>
      match kwargs !! k with
      | Some _ => first_missing kwargs rest
      | None => Some k
      end
  end.

(** The test routine the engine calls for [sm_type], on the fields it looked
    up, answers [o] (a value or an error). *)
Definition test_outcome {L : StatsLib} (sm_type : string) (kwargs : gmap string pyval)
    (o : result (float * float)) : Prop :=
  (sm_type = "cr"%string /\
   exists variant_conv control_conv variant_n control_n,
     kwargs !! "variant_conv"%string = Some variant_conv /\
     kwargs !! "control_conv"%string = Some control_conv /\
     kwargs !! "variant_n"%string = Some variant_n /\
     kwargs !! "control_n"%string = Some control_n /\
     proportions_ztest (variant_conv, control_conv) (variant_n, control_n) = o)
  \/
  (sm_type = "epc"%string /\
   exists v_mean v_std v_n c_mean c_std c_n,
     kwargs !! "v_mean"%string = Some v_mean /\
     kwargs !! "v_std"%string = Some v_std /\
     kwargs !! "v_n"%string = Some v_n /\
     kwargs !! "c_mean"%string = Some c_mean /\
     kwargs !! "c_std"%string = Some c_std /\
     kwargs !! "c_n"%string = Some c_n /\
     ttest_ind_from_stats v_mean v_std v_n c_mean c_std c_n = o).

(** The library has no solver under the name line 64 uses: every call of it
    raises AttributeError. *)
Definition solver_missing (L : StatsLib) : Prop :=
  forall d a p r : float,
    solve_nobs_two_indep d a p r = Raise (OtherError "AttributeError").

(** The relative MDE of lines 41-45 once the default is filled in. *)
Definition resolved_mde (sm_type : string) (mde_relative : option float) : option float :=
  match mde_relative with
  | Some m => Some m
  | None => mde_mapping !! sm_type
  end.

(** What an analysis reports besides its verdict. *)
Definition report (r : analysis) : float * pyval := (p_value r, observed_diff r).

(** ** Facts about the result monad and the numeric operations *)

Lemma bind_Ok {A B} (m : result A) (k : A -> result B) (b : B) :
  m ≫= k = Ok b -> exists a, m = Ok a /\ k a = Ok b.
Proof. destruct m as [a|e]; simpl; [eauto | discriminate]. Qed.

Lemma bind_Raise {A B} (m : result A) (k : A -> result B) (e : exn) :
  m ≫= k = Raise e -> m = Raise e \/ exists a, m = Ok a /\ k a = Raise e.
Proof. destruct m as [a|e']; simpl; [eauto | intros [= ->]; auto]. Qed.

(** Splits a hypothesis [m ≫= k = Ok b] into its two steps, repeatedly. *)
Ltac inv_ok H :=
  repeat match type of H with
         | _ ≫= _ = Ok _ =>
             let a := fresh "a" in
             let Ha := fresh "Ha" in
             apply bind_Ok in H as (a & Ha & H)
         end.

Lemma float_div_int_usable (x : float) (n : Z) :
  usable_divisor n = true -> exists k, float_of_int n = Ok k /\ float_div_int x n = Ok (x / k)%float.
Proof.
  unfold usable_divisor, float_div_int. destruct (float_of_int n) as [k|e]; [|discriminate].
  intros Hk. exists k. split; [reflexivity|]. simpl. unfold float_div.
  destruct (PrimFloat.eqb k 0); [discriminate | reflexivity].
Qed.

Lemma float_div_nonzero (x y : float) :
  PrimFloat.eqb y 0 = false -> float_div x y = Ok (x / y)%float.
Proof. unfold float_div. intros ->. reflexivity. Qed.

Lemma mde_mapping_epc : mde_mapping !! "epc"%string = Some 0.10%float.
Proof. vm_compute. reflexivity. Qed.

Lemma mde_mapping_cr : mde_mapping !! "cr"%string = Some 0.05%float.
Proof. vm_compute. reflexivity. Qed.

Lemma mde_mapping_other (sm_type : string) :
  sm_type <> "cr"%string -> sm_type <> "epc"%string -> mde_mapping !! sm_type = None.
Proof.
  intros Hcr Hepc. unfold mde_mapping.
  rewrite lookup_insert_ne by congruence.
  apply lookup_singleton_ne. congruence.
Qed.

(** ** Facts about binary64 values *)

Lemma is_nan_Prim2SF (x : float) : PrimFloat.is_nan x = true -> Prim2SF x = S754_nan.
Proof. unfold Prim2SF. intros ->. reflexivity. Qed.

Lemma Prim2SF_nan (x : float) : Prim2SF x = S754_nan -> PrimFloat.is_nan x = true.
Proof.
  unfold Prim2SF. destruct (PrimFloat.is_nan x); [reflexivity|].
  destruct (PrimFloat.is_zero x); [discriminate|].
  destruct (PrimFloat.is_infinity x); [discriminate|].
  destruct (Z.frexp x) as [r e]. destruct (shr_fexp _ _ _ _ _) as [shr e'].
  destruct (shr_m shr); discriminate.
Qed.

(** A NaN is below nothing. *)
Lemma ltb_nan (p alpha : float) : PrimFloat.is_nan p = true -> PrimFloat.ltb p alpha = false.
Proof. intros H. rewrite ltb_spec, (is_nan_Prim2SF _ H). reflexivity. Qed.

Lemma int_of_ceil_ValueError (x : float) msg :
  int_of_ceil x = Raise (ValueError msg) -> PrimFloat.is_nan x = true.
Proof.
  unfold int_of_ceil. intros H. apply Prim2SF_nan. destruct (Prim2SF x); try discriminate.
  reflexivity.
Qed.

(** *** Counts and shares of the data model

    The engine divides by [num_variants] and by the control share before
    it inspects anything else.  Every count from 1 up to 2^53 converts to a
    non-zero float, and a positive share is not zero. *)

Lemma digits2_pos_size (p : positive) : digits2_pos p = Pos.size p.
Proof. induction p; simpl; congruence. Qed.

Lemma digits2_pos_iter_xO (p k : positive) :
  digits2_pos (Pos.iter xO p k) = (digits2_pos p + k)%positive.
Proof.
  induction k using Pos.peano_ind.
  - simpl. lia.
  - rewrite Pos.iter_succ. simpl. rewrite IHk. lia.
Qed.

Lemma digits2_pos_bound (p : positive) : Zpos p < 2 ^ 53 -> Zpos (digits2_pos p) <= 53.
Proof.
  intros Hp. rewrite digits2_pos_size.
  pose proof (Pos.size_le p) as Hs.
  assert (H : 2 ^ Zpos (Pos.size p) <= 2 * Zpos p).
  { rewrite <- Pos2Z.inj_pow. change (2 * Zpos p) with (Zpos p~0). lia. }
  assert (H' : 2 ^ Zpos (Pos.size p) < 2 ^ 54) by (change (2 ^ 54) with (2 * 2 ^ 53); lia).
  apply Z.pow_lt_mono_r_iff in H'; lia.
Qed.

Lemma binary_round_aux_exact (s : bool) (m : positive) (e : Z) :
  Zpos (digits2_pos m) = 53 -> -1074 <= e <= 971 ->
  binary_round_aux prec emax s (Zpos m) e loc_Exact = S754_finite s m e.
Proof.
  intros Hd He. unfold binary_round_aux, shr_fexp, Zdigits2. rewrite Hd.
  assert (Hf : fexp prec emax (53 + e) - e = 0).
  { unfold fexp, SpecFloat.emin, prec, emax. lia. }
  rewrite Hf. simpl. rewrite Hd, Hf. simpl.
  destruct (Z.leb_spec e (emax - prec)) as [_|H]; [reflexivity|].
  unfold prec, emax in H. lia.
Qed.

Lemma binary_normalize_small (p : positive) :
  Zpos p < 2 ^ 53 ->
  exists m e, binary_normalize prec emax (Zpos p) 0 false = S754_finite false m e /\
              valid_binary (S754_finite false m e) = true.
Proof.
  intros Hp. pose proof (digits2_pos_bound p Hp) as Hd.
  unfold binary_normalize, binary_round, shl_align.
  assert (Hf : fexp prec emax (Zpos (digits2_pos p) + 0) = Zpos (digits2_pos p) - 53).
  { unfold fexp, SpecFloat.emin, prec, emax. lia. }
  rewrite Hf.
  destruct (Zpos (digits2_pos p) - 53 - 0) as [|k|k] eqn:Hk; try lia.
  - exists p, 0. assert (Hd53 : Zpos (digits2_pos p) = 53) by lia.
    replace (Zpos (digits2_pos p) - 53) with 0 by lia.
    split; [apply binary_round_aux_exact; [exact Hd53 | lia]|].
    simpl. unfold bounded, canonical_mantissa. rewrite Hd53. reflexivity.
  - set (m := Pos.iter xO p k). set (e := Zpos (digits2_pos p) - 53).
    assert (Hm : Zpos (digits2_pos m) = 53).
    { unfold m. rewrite digits2_pos_iter_xO. lia. }
    exists m, e. split; [apply binary_round_aux_exact; [exact Hm | lia]|].
    simpl. unfold bounded, canonical_mantissa. rewrite Hm.
    assert (Hfe : fexp prec emax (53 + e) = e).
    { unfold fexp, SpecFloat.emin, prec, emax. lia. }
    rewrite Hfe, Z.eqb_refl. simpl. apply Z.leb_le. unfold prec, emax. lia.
Qed.

(** Every count from 1 up to 2^53 is a usable divisor. *)
Lemma usable_divisor_count (n : Z) : 1 <= n < 2 ^ 53 -> usable_divisor n = true.
Proof.
  intros Hn. destruct n as [|p|p]; try lia.
  destruct (binary_normalize_small p) as (m & e & Hb & Hv); [lia|].
  unfold usable_divisor, float_of_int. rewrite Hb.
  rewrite FloatAxioms.eqb_spec, (Prim2SF_SF2Prim _ Hv). reflexivity.
Qed.

(** A positive share is not zero. *)
Lemma positive_share_nonzero (share : float) :
  PrimFloat.ltb 0 share = true -> PrimFloat.eqb share 0 = false.
Proof.
  rewrite ltb_spec, FloatAxioms.eqb_spec. change (Prim2SF 0) with (S754_zero false).
  destruct (Prim2SF share) as [s|s| |s m e]; simpl; try discriminate; try reflexivity.
  - destruct s; [discriminate | reflexivity].
  - destruct s; [discriminate | reflexivity].
Qed.

(** ** Sample-size planning: validation *)

Section PlanValidation.
Context {L : StatsLib}.

(** The validation step of line 34. *)
Lemma power_alpha_check sm_type sm_control std mde power alpha share nv :
  in_open_unit power && in_open_unit alpha = false ->
  calculate_sample_size sm_type sm_control std mde power alpha share nv
    = Raise (ValueError msg_power_alpha).
Proof. intros Hout. unfold calculate_sample_size. rewrite Hout. reflexivity. Qed.

(** C6. A request whose power or alpha is 0 or 1, or more generally not
    strictly between 0 and 1, makes [calculate_sample_size] raise the
    ValueError of its validation step, whatever the other arguments are. *)
Theorem plan_rejects_power_alpha_outside_unit
    sm_type sm_control std mde power alpha share nv :
  power = 0%float \/ power = 1%float \/ alpha = 0%float \/ alpha = 1%float \/
    in_open_unit power && in_open_unit alpha = false ->
  calculate_sample_size sm_type sm_control std mde power alpha share nv
    = Raise (ValueError msg_power_alpha).
Proof.
  intros H. apply power_alpha_check.
  destruct H as [-> | [-> | [-> | [-> | H]]]]; try exact H.
  - reflexivity.
  - reflexivity.
  - apply andb_false_r.
  - apply andb_false_r.
Qed.

(** The steps of [calculate_sample_size] before the effect size, for an EPC
    request that passes validation: they all return. *)
Lemma plan_epc_reaches_effect_size sm_control std mde power alpha share nv :
  in_open_unit power && in_open_unit alpha = true ->
  usable_divisor nv = true ->
  PrimFloat.eqb share 0 = false ->
  exists k,
    float_of_int nv = Ok k /\
    calculate_sample_size "epc" sm_control std mde power alpha share nv =
      (effect_size ←
         effect_size_of "epc" sm_control (sm_control * default 0.10 mde)%float std;
       n_control ← solve_nobs_two_indep effect_size (alpha / k)%float power
                     ((1.0 - share) / k / share)%float;
       c ← int_of_ceil n_control;
       v ← int_of_ceil (n_control * ((1.0 - share) / k / share))%float;
       Ok {| control_sample_size := c; variant_sample_size_per_variant := v |}).
Proof.
  intros Hpa Hnv Hshare.
  destruct (float_div_int_usable alpha nv Hnv) as (k & Hk & Ha).
  destruct (float_div_int_usable (1.0 - share)%float nv Hnv) as (k' & Hk' & Hv).
  assert (k' = k) as -> by congruence.
  exists k. split; [exact Hk|].
  unfold calculate_sample_size. rewrite Hpa, Ha, Hv. simpl.
  rewrite (float_div_nonzero _ share Hshare).
  destruct mde as [m|]; simpl; [reflexivity|].
  rewrite mde_mapping_epc. reflexivity.
Qed.

(** Lines 58-59: a falsy deviation stops an EPC request. *)
Lemma plan_epc_falsy_std sm_control std mde power alpha share nv :
  falsy std = true ->
  usable_divisor nv = true ->
  PrimFloat.eqb share 0 = false ->
  calculate_sample_size "epc" sm_control std mde power alpha share nv =
    Raise (ValueError (if in_open_unit power && in_open_unit alpha
                       then msg_std_required else msg_power_alpha)).
Proof.
  intros Hstd Hnv Hshare.
  destruct (in_open_unit power && in_open_unit alpha) eqn:Hpa.
  - destruct (plan_epc_reaches_effect_size sm_control std mde power alpha share nv
                Hpa Hnv Hshare) as (k & _ & ->).
    unfold effect_size_of. simpl. destruct std as [s|]; [|reflexivity].
    simpl in Hstd. rewrite Hstd. reflexivity.
  - apply power_alpha_check. exact Hpa.
Qed.

(** C7. An EPC request with no control standard deviation makes
    [calculate_sample_size] raise a ValueError: the validation step's when
    power or alpha is out of range, the missing-deviation one otherwise.
    The code divides by the number of variants and by the control share
    before it reaches the check, so the request must let it: the number of
    variants converts to a non-zero float and the share is not zero, which
    every request of the data model satisfies ([usable_divisor_count],
    [positive_share_nonzero]). *)
Theorem plan_epc_without_std_is_invalid sm_control mde power alpha share nv :
  usable_divisor nv = true ->
  PrimFloat.eqb share 0 = false ->
  calculate_sample_size "epc" sm_control None mde power alpha share nv =
    Raise (ValueError (if in_open_unit power && in_open_unit alpha
                       then msg_std_required else msg_power_alpha)).
Proof. intros Hnv Hshare. apply plan_epc_falsy_std; [reflexivity | exact Hnv | exact Hshare]. Qed.

(** The EPC effect size treats a zero deviation as a missing one, and its
    division never sees a zero divisor. *)
Lemma effect_size_epc_zero_std sm_control mde_absolute std :
  PrimFloat.eqb std 0 = true ->
  effect_size_of "epc" sm_control mde_absolute (Some std) =
  effect_size_of "epc" sm_control mde_absolute None.
Proof. intros H. unfold effect_size_of. simpl. rewrite H. reflexivity. Qed.

Lemma effect_size_epc_no_zero_division sm_control mde_absolute std :
  effect_size_of "epc" sm_control mde_absolute std <> Raise ZeroDivisionError.
Proof.
  unfold effect_size_of. simpl. destruct std as [s|]; [|discriminate].
  destruct (PrimFloat.eqb s 0) eqn:Hs; [discriminate|].
  rewrite (float_div_nonzero _ _ Hs). discriminate.
Qed.

(** C10. An EPC request whose control standard deviation is zero behaves in
    every respect as the same request with no deviation at all; when the
    request passes the earlier steps that is the missing-deviation
    ValueError, and the effect-size division never divides by zero. *)
Theorem plan_epc_zero_std_as_missing sm_control std mde power alpha share nv :
  PrimFloat.eqb std 0 = true ->
  calculate_sample_size "epc" sm_control (Some std) mde power alpha share nv =
    calculate_sample_size "epc" sm_control None mde power alpha share nv
  /\ (in_open_unit power && in_open_unit alpha = true ->
      usable_divisor nv = true ->
      PrimFloat.eqb share 0 = false ->
      calculate_sample_size "epc" sm_control (Some std) mde power alpha share nv =
        Raise (ValueError msg_std_required))
  /\ (forall mde_absolute,
      effect_size_of "epc" sm_control mde_absolute (Some std) <> Raise ZeroDivisionError).
Proof.
  intros Hz. split; [|split].
  - unfold calculate_sample_size.
    destruct (negb _); [reflexivity|].
    destruct (float_div_int alpha nv); simpl; [|reflexivity].
    destruct (match mde with Some m => Ok m | None => _ end); simpl; [|reflexivity].
    destruct (float_div_int _ nv); simpl; [|reflexivity].
    destruct (float_div _ share); simpl; [|reflexivity].
    rewrite (effect_size_epc_zero_std _ _ _ Hz). reflexivity.
  - intros Hpa Hnv Hshare.
    rewrite (plan_epc_falsy_std sm_control (Some std) mde power alpha share nv Hz Hnv Hshare).
    rewrite Hpa. reflexivity.
  - intros m. apply effect_size_epc_no_zero_division.
Qed.

End PlanValidation.

(** ** Significance analysis *)

Section Analysis.
Context {L : StatsLib}.

Lemma getitem_Ok (kwargs : gmap string pyval) key v :
  getitem kwargs key = Ok v -> kwargs !! key = Some v.
Proof. unfold getitem. destruct (kwargs !! key); [intros [= ->]; reflexivity | discriminate]. Qed.

Lemma run_test_other sm_type kwargs :
  sm_type <> "cr"%string -> sm_type <> "epc"%string -> run_test sm_type kwargs = Ok None.
Proof.
  intros Hcr Hepc. unfold run_test.
  apply String.eqb_neq in Hcr, Hepc. rewrite Hcr, Hepc. reflexivity.
Qed.

Lemma run_test_returned sm_type kwargs stat p_val diff :
  run_test sm_type kwargs = Ok (Some (stat, p_val, diff)) ->
  test_returned sm_type kwargs (stat, p_val).
Proof.
  unfold run_test, test_returned.
  destruct (String.eqb sm_type "cr") eqn:Hcr.
  - apply String.eqb_eq in Hcr. intros H. left. split; [exact Hcr|].
    apply bind_Ok in H as (vc & Hvc & H). apply bind_Ok in H as (cc & Hcc & H).
    apply bind_Ok in H as (vn & Hvn & H). apply bind_Ok in H as (cn & Hcn & H).
    apply bind_Ok in H as ([stat' p'] & Ht & H).
    inv_ok H. injection H as -> -> _.
    exists vc, cc, vn, cn. repeat split; auto using getitem_Ok.
  - destruct (String.eqb sm_type "epc") eqn:Hepc; [|discriminate].
    apply String.eqb_eq in Hepc. intros H. right. split; [exact Hepc|].
    apply bind_Ok in H as (vm & Hvm & H). apply bind_Ok in H as (vs & Hvs & H).
    apply bind_Ok in H as (vn & Hvn & H). apply bind_Ok in H as (cm & Hcm & H).
    apply bind_Ok in H as (cs & Hcs & H). apply bind_Ok in H as (cn & Hcn & H).
    apply bind_Ok in H as ([stat' p'] & Ht & H).
    inv_ok H. injection H as -> -> _.
    exists vm, vs, vn, cm, cs, cn. repeat split; auto using getitem_Ok.
Qed.

(** What [analyze_results] returns, read off the body of its [try] block. *)
Lemma analyze_results_cases sm_type alpha kwargs :
  (exists r, analyze_body sm_type alpha kwargs = Ok r /\
             analyze_results sm_type alpha kwargs = (Ok (Some r), []))
  \/
  (exists e, analyze_body sm_type alpha kwargs = Raise e /\
             analyze_results sm_type alpha kwargs = (Ok None, [e])).
Proof.
  unfold analyze_results. destruct (analyze_body sm_type alpha kwargs) as [r|e]; eauto.
Qed.

Lemma analyze_body_Ok sm_type alpha kwargs r :
  analyze_body sm_type alpha kwargs = Ok r ->
  exists stat p_val diff,
    run_test sm_type kwargs = Ok (Some (stat, p_val, diff)) /\
    is_significant r = (if PrimFloat.ltb p_val alpha then 1 else 0) /\
    p_value r = float64_round4 p_val /\
    round4 diff = Ok (observed_diff r).
Proof.
  unfold analyze_body. intros H.
  apply bind_Ok in H as (bound & Hrun & H).
  destruct bound as [[[stat p_val] diff]|]; [|discriminate].
  apply bind_Ok in H as (d & Hd & H). injection H as <-.
  exists stat, p_val, diff. simpl. auto.
Qed.

(** C3. Whatever the metric type, the level and the keyword arguments are
    (missing, ill-typed or degenerate fields included) and whatever the
    library routines do, [analyze_results] returns to its caller: either the
    analysis its body computed, with nothing logged, or [None] with the
    error its body raised logged; it never raises. *)
Theorem analyze_never_raises sm_type alpha kwargs :
  exists r log,
    analyze_results sm_type alpha kwargs = (Ok r, log) /\
    ((exists a, r = Some a /\ log = [] /\ analyze_body sm_type alpha kwargs = Ok a) \/
     (exists e, r = None /\ log = [e] /\ analyze_body sm_type alpha kwargs = Raise e)).
Proof.
  destruct (analyze_results_cases sm_type alpha kwargs) as [(r & Hb & ->) | (e & Hb & ->)].
  - exists (Some r), []. split; [reflexivity|]. left. exists r. auto.
  - exists None, [e]. split; [reflexivity|]. right. exists e. auto.
Qed.

(** C4. When [analyze_results] returns an analysis, its verdict is 1 exactly
    when the p-value the test routine returned, unrounded, is strictly below
    alpha, and 0 otherwise; the reported p-value is that p-value rounded, and
    this holds for every rounding function, so rounding cannot move the
    verdict. *)
Theorem verdict_from_unrounded_p_value sm_type alpha kwargs r :
  (analyze_results sm_type alpha kwargs).1 = Ok (Some r) ->
  exists stat p_val diff,
    test_returned sm_type kwargs (stat, p_val) /\
    run_test sm_type kwargs = Ok (Some (stat, p_val, diff)) /\
    (is_significant r = 1 <-> PrimFloat.ltb p_val alpha = true) /\
    (is_significant r = 0 <-> PrimFloat.ltb p_val alpha = false) /\
    p_value r = float64_round4 p_val /\
    round4 diff = Ok (observed_diff r).
Proof.
  intros H.
  destruct (analyze_results_cases sm_type alpha kwargs) as [(r' & Hb & Hr) | (e & Hb & Hr)];
    rewrite Hr in H; simpl in H; [|discriminate].
  injection H as ->.
  destruct (analyze_body_Ok _ _ _ _ Hb) as (stat & p_val & diff & Hrun & Hsig & Hp & Hd).
  exists stat, p_val, diff.
  split; [eapply run_test_returned; exact Hrun|].
  split; [exact Hrun|].
  rewrite Hsig. destruct (PrimFloat.ltb p_val alpha); repeat split; auto; discriminate.
Qed.

(** C9. A metric type other than 'cr' and 'epc' runs neither test: the
    names of the return statement are unbound, the error is caught and
    logged, and [analyze_results] returns [None]. *)
Theorem analyze_unknown_metric_fails sm_type alpha kwargs :
  sm_type <> "cr"%string -> sm_type <> "epc"%string ->
  analyze_results sm_type alpha kwargs = (Ok None, [UnboundLocalError "p_val"]).
Proof.
  intros Hcr Hepc. unfold analyze_results, analyze_body.
  rewrite (run_test_other _ _ Hcr Hepc). reflexivity.
Qed.

End Analysis.

(** ** Degenerate analysis requests *)

(** Dividing by a zero count raises, whatever is divided. *)
Lemma truediv_zero_count (a b : pyval) :
  zero_count b = true -> exists e, truediv a b = Raise e.
Proof.
  destruct b as [|z|f|s]; simpl; try discriminate; intros Hz.
  - apply Z.eqb_eq in Hz as ->.
    destruct a as [|x|x|s]; simpl; eauto.
  - destruct a as [|x|x|s]; simpl; eauto.
    + destruct (float_of_int x); simpl; eauto.
      unfold float_div. rewrite Hz. simpl. eauto.
    + unfold float_div. rewrite Hz. simpl. eauto.
Qed.

Section Degenerate.
Context {L : StatsLib}.

Lemma run_test_cr_zero_count kwargs n :
  kwargs !! "variant_n"%string = Some n \/ kwargs !! "control_n"%string = Some n ->
  zero_count n = true ->
  exists e, run_test "cr" kwargs = Raise e.
Proof.
  intros Hn Hz. unfold run_test. change (String.eqb "cr" "cr") with true. cbv iota.
  unfold getitem.
  destruct (kwargs !! "variant_conv"%string) as [vc|]; simpl; eauto.
  destruct (kwargs !! "control_conv"%string) as [cc|]; simpl; eauto.
  destruct (kwargs !! "variant_n"%string) as [vn|] eqn:Hvn; simpl; eauto.
  destruct (kwargs !! "control_n"%string) as [cn|] eqn:Hcn; simpl; eauto.
  destruct (proportions_ztest (vc, cc) (vn, cn)) as [[stat p]|]; simpl; eauto.
  destruct Hn as [[= ->] | [= ->]].
  - destruct (truediv_zero_count vc n Hz) as (e & ->). simpl. eauto.
  - destruct (truediv vc vn); simpl; eauto.
    destruct (truediv_zero_count cc n Hz) as (e & ->). simpl. eauto.
Qed.

Lemma run_test_epc_returns kwargs v_mean v_std v_n c_mean c_std c_n stat p_val :
  kwargs !! "v_mean"%string = Some (PFloat v_mean) ->
  kwargs !! "v_std"%string = Some v_std ->
  kwargs !! "v_n"%string = Some v_n ->
  kwargs !! "c_mean"%string = Some (PFloat c_mean) ->
  kwargs !! "c_std"%string = Some c_std ->
  kwargs !! "c_n"%string = Some c_n ->
  ttest_ind_from_stats (PFloat v_mean) v_std v_n (PFloat c_mean) c_std c_n = Ok (stat, p_val) ->
  run_test "epc" kwargs = Ok (Some (stat, p_val, PFloat (v_mean - c_mean)%float)).
Proof.
  intros Hvm Hvs Hvn Hcm Hcs Hcn Ht. unfold run_test.
  change (String.eqb "epc" "cr") with false. change (String.eqb "epc" "epc") with true.
  cbv iota. unfold getitem. rewrite Hvm, Hvs, Hvn, Hcm, Hcs, Hcn. simpl.
  rewrite Ht. reflexivity.
Qed.

(** An EPC request whose t-test returns is answered with a normal analysis. *)
Lemma analyze_epc_returns alpha kwargs v_mean v_std v_n c_mean c_std c_n stat p_val :
  kwargs !! "v_mean"%string = Some (PFloat v_mean) ->
  kwargs !! "v_std"%string = Some v_std ->
  kwargs !! "v_n"%string = Some v_n ->
  kwargs !! "c_mean"%string = Some (PFloat c_mean) ->
  kwargs !! "c_std"%string = Some c_std ->
  kwargs !! "c_n"%string = Some c_n ->
  ttest_ind_from_stats (PFloat v_mean) v_std v_n (PFloat c_mean) c_std c_n = Ok (stat, p_val) ->
  analyze_results "epc" alpha kwargs =
    (Ok (Some {| is_significant := if PrimFloat.ltb p_val alpha then 1 else 0;
                 p_value := float64_round4 p_val;
                 observed_diff := PFloat (round4_float (v_mean - c_mean)) |}), []).
Proof.
  intros Hvm Hvs Hvn Hcm Hcs Hcn Ht. unfold analyze_results, analyze_body.
  rewrite (run_test_epc_returns kwargs _ _ _ _ _ _ _ _ Hvm Hvs Hvn Hcm Hcs Hcn Ht).
  reflexivity.
Qed.

(** C1, as the code has it.  A CR request with a zero observation count in
    either arm always ends in the failure value: the rate division raises
    and the error is caught.  An EPC request is not inspected for zero
    deviations: whenever the t-test routine returns a statistic and p-value,
    [analyze_results] returns a normal analysis built from them, and a NaN
    p-value yields the verdict 0. *)
Theorem analyze_degenerate_requests alpha kwargs :
  (forall n,
     kwargs !! "variant_n"%string = Some n \/ kwargs !! "control_n"%string = Some n ->
     zero_count n = true ->
     exists e, analyze_results "cr" alpha kwargs = (Ok None, [e]))
  /\
  (forall v_mean v_std v_n c_mean c_std c_n stat p_val,
     kwargs !! "v_mean"%string = Some (PFloat v_mean) ->
     kwargs !! "v_std"%string = Some v_std ->
     kwargs !! "v_n"%string = Some v_n ->
     kwargs !! "c_mean"%string = Some (PFloat c_mean) ->
     kwargs !! "c_std"%string = Some c_std ->
     kwargs !! "c_n"%string = Some c_n ->
     ttest_ind_from_stats (PFloat v_mean) v_std v_n (PFloat c_mean) c_std c_n
       = Ok (stat, p_val) ->
     analyze_results "epc" alpha kwargs =
       (Ok (Some {| is_significant := if PrimFloat.ltb p_val alpha then 1 else 0;
                    p_value := float64_round4 p_val;
                    observed_diff := PFloat (round4_float (v_mean - c_mean)) |}), [])
     /\ (PrimFloat.is_nan p_val = true ->
         analyze_results "epc" alpha kwargs =
           (Ok (Some {| is_significant := 0;
                        p_value := float64_round4 p_val;
                        observed_diff := PFloat (round4_float (v_mean - c_mean)) |}), []))).
Proof.
  split.
  - intros n Hn Hz. destruct (run_test_cr_zero_count kwargs n Hn Hz) as (e & He).
    exists e. unfold analyze_results, analyze_body. rewrite He. reflexivity.
  - intros v_mean v_std v_n c_mean c_std c_n stat p_val Hvm Hvs Hvn Hcm Hcs Hcn Ht.
    pose proof (analyze_epc_returns alpha kwargs _ _ _ _ _ _ _ _
                  Hvm Hvs Hvn Hcm Hcs Hcn Ht) as Hres.
    split; [exact Hres|].
    intros Hnan. rewrite Hres, (ltb_nan _ alpha Hnan). reflexivity.
Qed.

(** Rounding is for the report only: a p-value of 0.04996 is significant at
    the level 0.05 although the four-decimal value reported for it, 0.05, is
    not below the level. *)
Example verdict_not_from_reported_p_value kwargs v_mean v_std v_n c_mean c_std c_n stat :
  kwargs !! "v_mean"%string = Some (PFloat v_mean) ->
  kwargs !! "v_std"%string = Some v_std ->
  kwargs !! "v_n"%string = Some v_n ->
  kwargs !! "c_mean"%string = Some (PFloat c_mean) ->
  kwargs !! "c_std"%string = Some c_std ->
  kwargs !! "c_n"%string = Some c_n ->
  ttest_ind_from_stats (PFloat v_mean) v_std v_n (PFloat c_mean) c_std c_n
    = Ok (stat, 0.04996%float) ->
  analyze_results "epc" 0.05 kwargs =
    (Ok (Some {| is_significant := 1;
                 p_value := float64_round4 0.04996;
                 observed_diff := PFloat (round4_float (v_mean - c_mean)) |}), [])
  /\ PrimFloat.ltb (SpecModel.np_round4 0.04996) 0.05 = false
  /\ PrimFloat.ltb (round4_float 0.04996) 0.05 = false.
Proof.
  intros Hvm Hvs Hvn Hcm Hcs Hcn Ht.
  rewrite (analyze_epc_returns 0.05 kwargs _ _ _ _ _ _ _ _ Hvm Hvs Hvn Hcm Hcs Hcn Ht).
  repeat split; reflexivity.
Qed.

End Degenerate.

(** ** Sample-size planning: the MDE and the solver call *)

Lemma float_of_int_not_ValueError (n : Z) msg : float_of_int n <> Raise (ValueError msg).
Proof. unfold float_of_int. destruct (binary_normalize _ _ _ _ _); discriminate. Qed.

Lemma float_div_not_ValueError (x y : float) msg : float_div x y <> Raise (ValueError msg).
Proof. unfold float_div. destruct (PrimFloat.eqb y 0); discriminate. Qed.

Lemma float_div_int_not_ValueError (x : float) (n : Z) msg :
  float_div_int x n <> Raise (ValueError msg).
Proof.
  unfold float_div_int. intros H. apply bind_Raise in H as [H | (k & _ & H)].
  - exact (float_of_int_not_ValueError _ _ H).
  - exact (float_div_not_ValueError _ _ _ H).
Qed.

(** The defaults of [mde_mapping] are positive. *)
Lemma mde_mapping_positive (sm_type : string) (m : float) :
  mde_mapping !! sm_type = Some m -> PrimFloat.ltb 0 m = true.
Proof.
  destruct (decide (sm_type = "cr"%string)) as [-> | Hcr].
  { rewrite mde_mapping_cr. intros [= <-]. reflexivity. }
  destruct (decide (sm_type = "epc"%string)) as [-> | Hepc].
  { rewrite mde_mapping_epc. intros [= <-]. reflexivity. }
  rewrite (mde_mapping_other _ Hcr Hepc). discriminate.
Qed.

Section PlanResult.
Context {L : StatsLib}.

(** An EPC request that passes the checks hands its effect size to the
    solver, whatever the sign of the MDE. *)
Lemma plan_epc_pipeline sm_control s m power alpha share nv :
  in_open_unit power && in_open_unit alpha = true ->
  usable_divisor nv = true ->
  PrimFloat.eqb share 0 = false ->
  PrimFloat.eqb s 0 = false ->
  exists k,
    float_of_int nv = Ok k /\
    calculate_sample_size "epc" sm_control (Some s) (Some m) power alpha share nv =
      (n_control ← solve_nobs_two_indep (sm_control * m / s)%float (alpha / k)%float
                     power ((1.0 - share) / k / share)%float;
       c ← int_of_ceil n_control;
       v ← int_of_ceil (n_control * ((1.0 - share) / k / share))%float;
       Ok {| control_sample_size := c; variant_sample_size_per_variant := v |}).
Proof.
  intros Hpa Hnv Hshare Hs.
  destruct (plan_epc_reaches_effect_size sm_control (Some s) (Some m) power alpha share nv
              Hpa Hnv Hshare) as (k & Hk & ->).
  exists k. split; [exact Hk|].
  unfold effect_size_of. simpl. rewrite Hs, (float_div_nonzero _ _ Hs). reflexivity.
Qed.

(** A request that passes the checks of lines 34-62 is, from there on, the
    solver call of line 64 and the two conversions. *)
Lemma plan_reaches_solver sm_type sm_control std mde power alpha share nv m d :
  in_open_unit power && in_open_unit alpha = true ->
  usable_divisor nv = true ->
  PrimFloat.eqb share 0 = false ->
  resolved_mde sm_type mde = Some m ->
  effect_size_of sm_type sm_control (sm_control * m)%float std = Ok d ->
  exists k,
    float_of_int nv = Ok k /\
    calculate_sample_size sm_type sm_control std mde power alpha share nv =
      (n_control ← solve_nobs_two_indep d (alpha / k)%float
                     power ((1.0 - share) / k / share)%float;
       c ← int_of_ceil n_control;
       v ← int_of_ceil (n_control * ((1.0 - share) / k / share))%float;
       Ok {| control_sample_size := c; variant_sample_size_per_variant := v |}).
Proof.
  intros Hpa Hnv Hshare Hm Hd.
  destruct (float_div_int_usable alpha nv Hnv) as (k & Hk & Ha).
  destruct (float_div_int_usable (1.0 - share)%float nv Hnv) as (k' & Hk' & Hv).
  assert (k' = k) as -> by congruence.
  exists k. split; [exact Hk|].
  unfold calculate_sample_size. rewrite Hpa, Ha. simpl.
  unfold resolved_mde in Hm.
  destruct mde as [m'|].
  - injection Hm as ->. simpl. rewrite Hv. simpl.
    rewrite (float_div_nonzero _ share Hshare). simpl. rewrite Hd. reflexivity.
  - rewrite Hm. simpl. rewrite Hv. simpl.
    rewrite (float_div_nonzero _ share Hshare). simpl. rewrite Hd. reflexivity.
Qed.

(** Without a solver no request ends in sizes. *)
Lemma plan_no_sizes sm_type sm_control std mde power alpha share nv s :
  solver_missing L ->
  calculate_sample_size sm_type sm_control std mde power alpha share nv <> Ok s.
Proof.
  intros Hmiss H. unfold calculate_sample_size in H.
  destruct (negb _); [discriminate|].
  apply bind_Ok in H as (a & _ & H). apply bind_Ok in H as (m & _ & H).
  apply bind_Ok in H as (vs & _ & H). apply bind_Ok in H as (r & _ & H).
  apply bind_Ok in H as (d & _ & H). apply bind_Ok in H as (n & Hn & _).
  rewrite Hmiss in Hn. discriminate.
Qed.

(** With the checks passed and no solver, the call ends in the
    AttributeError of line 64. *)
Lemma plan_attribute_error sm_type sm_control std mde power alpha share nv m d :
  solver_missing L ->
  in_open_unit power && in_open_unit alpha = true ->
  usable_divisor nv = true ->
  PrimFloat.eqb share 0 = false ->
  resolved_mde sm_type mde = Some m ->
  effect_size_of sm_type sm_control (sm_control * m)%float std = Ok d ->
  calculate_sample_size sm_type sm_control std mde power alpha share nv =
    Raise (OtherError "AttributeError").
Proof.
  intros Hmiss Hpa Hnv Hshare Hm Hd.
  destruct (plan_reaches_solver _ _ _ _ _ _ _ _ _ _ Hpa Hnv Hshare Hm Hd) as (k & _ & ->).
  rewrite Hmiss. reflexivity.
Qed.

(** C2, as the code has it.  [calculate_sample_size] never looks at the
    sign of the relative MDE.  The ValueErrors it raises itself are the
    power/alpha check, the unknown metric type and the EPC request without a
    non-zero deviation; any other ValueError comes out of a library routine
    or the integer conversion.  The metric defaults are positive.  A request
    that passes the checks goes on with whatever MDE it was given: for EPC
    the effect size [sm_control * mde / std], of the MDE's sign, goes to the
    solver call; for CR the second proportion [sm_control + sm_control * mde]
    goes to the effect-size routine and its answer to the solver call. *)
Theorem plan_mde_sign_unchecked sm_type sm_control std mde power alpha share nv :
  (forall msg,
     calculate_sample_size sm_type sm_control std mde power alpha share nv
       = Raise (ValueError msg) ->
     (in_open_unit power && in_open_unit alpha = false /\ msg = msg_power_alpha) \/
     (mde = None /\ mde_mapping !! sm_type = None /\ msg = msg_unknown sm_type) \/
     (sm_type <> "cr"%string /\ sm_type <> "epc"%string /\ msg = msg_bad_type) \/
     (sm_type = "epc"%string /\ falsy std = true /\ msg = msg_std_required) \/
     (sm_type = "cr"%string /\
      exists p1 p2, proportion_effectsize p1 p2 = Raise (ValueError msg)) \/
     (exists d a r, solve_nobs_two_indep d a power r = Raise (ValueError msg)) \/
     (exists d a r n, solve_nobs_two_indep d a power r = Ok n /\
        (PrimFloat.is_nan n = true \/ PrimFloat.is_nan (n * r) = true)))
  /\
  (forall m, mde_mapping !! sm_type = Some m -> PrimFloat.ltb 0 m = true)
  /\
  (forall s m,
     in_open_unit power && in_open_unit alpha = true ->
     usable_divisor nv = true ->
     PrimFloat.eqb share 0 = false ->
     PrimFloat.eqb s 0 = false ->
     exists k,
       float_of_int nv = Ok k /\
       calculate_sample_size "epc" sm_control (Some s) (Some m) power alpha share nv =
         (n_control ← solve_nobs_two_indep (sm_control * m / s)%float (alpha / k)%float
                        power ((1.0 - share) / k / share)%float;
          c ← int_of_ceil n_control;
          v ← int_of_ceil (n_control * ((1.0 - share) / k / share))%float;
          Ok {| control_sample_size := c; variant_sample_size_per_variant := v |}))
  /\
  (forall m,
     in_open_unit power && in_open_unit alpha = true ->
     usable_divisor nv = true ->
     PrimFloat.eqb share 0 = false ->
     exists k,
       float_of_int nv = Ok k /\
       calculate_sample_size "cr" sm_control std (Some m) power alpha share nv =
         (effect_size ← proportion_effectsize sm_control
                          (sm_control + sm_control * m)%float;
          n_control ← solve_nobs_two_indep effect_size (alpha / k)%float
                        power ((1.0 - share) / k / share)%float;
          c ← int_of_ceil n_control;
          v ← int_of_ceil (n_control * ((1.0 - share) / k / share))%float;
          Ok {| control_sample_size := c; variant_sample_size_per_variant := v |})).
Proof.
  split; [|split; [|split]].
  - intros msg. unfold calculate_sample_size.
    destruct (in_open_unit power && in_open_unit alpha) eqn:Hpa; simpl.
    2:{ intros [= <-]. left. auto. }
    intros H. right.
    apply bind_Raise in H as [H | (a & _ & H)].
    { destruct (float_div_int_not_ValueError _ _ _ H). }
    apply bind_Raise in H as [H | (m & _ & H)].
    { left. destruct mde as [m|]; [discriminate|].
      destruct (mde_mapping !! sm_type); [discriminate|]. injection H as <-. auto. }
    right.
    apply bind_Raise in H as [H | (vs & _ & H)].
    { destruct (float_div_int_not_ValueError _ _ _ H). }
    apply bind_Raise in H as [H | (r & _ & H)].
    { destruct (float_div_not_ValueError _ _ _ H). }
    apply bind_Raise in H as [H | (d & _ & H)].
    { unfold effect_size_of in H.
      destruct (String.eqb sm_type "cr") eqn:Hcr.
      { apply String.eqb_eq in Hcr. right. right. left. eauto. }
      apply String.eqb_neq in Hcr.
      destruct (String.eqb sm_type "epc") eqn:Hepc.
      - apply String.eqb_eq in Hepc. right. left. split; [exact Hepc|].
        destruct std as [s|]; [|injection H as <-; auto].
        destruct (falsy (Some s)) eqn:Hf; [injection H as <-; auto|].
        destruct (float_div_not_ValueError _ _ _ H).
      - apply String.eqb_neq in Hepc. left. injection H as <-. auto. }
    right. right. right.
    apply bind_Raise in H as [H | (n & Hn & H)].
    { left. eauto. }
    right. exists d, a, r, n. split; [exact Hn|].
    apply bind_Raise in H as [H | (c & _ & H)].
    { left. exact (int_of_ceil_ValueError _ _ H). }
    apply bind_Raise in H as [H | (v & _ & H)].
    { right. exact (int_of_ceil_ValueError _ _ H). }
    discriminate.
  - apply mde_mapping_positive.
  - intros s m. apply plan_epc_pipeline.
  - intros m Hpa Hnv Hshare.
    destruct (float_div_int_usable alpha nv Hnv) as (k & Hk & Ha).
    destruct (float_div_int_usable (1.0 - share)%float nv Hnv) as (k' & Hk' & Hv).
    assert (k' = k) as -> by congruence.
    exists k. split; [exact Hk|].
    unfold calculate_sample_size. rewrite Hpa, Ha, Hv. simpl.
    rewrite (float_div_nonzero _ share Hshare). reflexivity.
Qed.

(** C5, in the code.  The solver method line 64 names does not exist, so no
    request ends in sizes, and a request that passes the checks of lines
    34-62 ends in the AttributeError of line 64 instead of two positive
    integers. *)
Theorem plan_raises_attribute_error sm_type sm_control std mde power alpha share nv :
  solver_missing L ->
  (forall s, calculate_sample_size sm_type sm_control std mde power alpha share nv <> Ok s)
  /\
  (forall m d,
     in_open_unit power && in_open_unit alpha = true ->
     usable_divisor nv = true ->
     PrimFloat.eqb share 0 = false ->
     resolved_mde sm_type mde = Some m ->
     effect_size_of sm_type sm_control (sm_control * m)%float std = Ok d ->
     calculate_sample_size sm_type sm_control std mde power alpha share nv =
       Raise (OtherError "AttributeError")).
Proof.
  intros Hmiss. split.
  - intros s. apply plan_no_sizes. exact Hmiss.
  - intros m d. apply plan_attribute_error. exact Hmiss.
Qed.

(** The request of the repository's [test_sample_size_output]: once the
    effect-size routine has answered, the call raises AttributeError, where
    the test expects two ints. *)
Example test_sample_size_output_raises d :
  solver_missing L ->
  proportion_effectsize 0.02 (0.02 + 0.02 * 0.05)%float = Ok d ->
  calculate_sample_size "cr" 0.02 None None 0.8 0.05 0.8 1 =
    Raise (OtherError "AttributeError").
Proof.
  intros Hmiss Hd.
  apply (plan_attribute_error "cr" 0.02 None None 0.8 0.05 0.8 1 0.05 d Hmiss);
    try reflexivity.
  exact Hd.
Qed.

(** C8, in the code.  Two requests that differ only in the relative MDE
    never yield sizes to compare: the solver method of line 64 does not
    exist, so neither call returns, and when both pass the checks of lines
    34-62 both end in the same AttributeError. *)
Theorem plan_mde_pair_raises sm_type sm_control std power alpha share nv m1 m2 :
  solver_missing L ->
  (~ exists s1 s2,
       calculate_sample_size sm_type sm_control std (Some m1) power alpha share nv = Ok s1 /\
       calculate_sample_size sm_type sm_control std (Some m2) power alpha share nv = Ok s2 /\
       control_sample_size s2 < control_sample_size s1 /\
       variant_sample_size_per_variant s2 < variant_sample_size_per_variant s1)
  /\
  (forall d1 d2,
     in_open_unit power && in_open_unit alpha = true ->
     usable_divisor nv = true ->
     PrimFloat.eqb share 0 = false ->
     effect_size_of sm_type sm_control (sm_control * m1)%float std = Ok d1 ->
     effect_size_of sm_type sm_control (sm_control * m2)%float std = Ok d2 ->
     calculate_sample_size sm_type sm_control std (Some m1) power alpha share nv =
       Raise (OtherError "AttributeError") /\
     calculate_sample_size sm_type sm_control std (Some m2) power alpha share nv =
       Raise (OtherError "AttributeError")).
Proof.
  intros Hmiss. split.
  - intros (s1 & s2 & H1 & _). exact (plan_no_sizes _ _ _ _ _ _ _ _ _ Hmiss H1).
  - intros d1 d2 Hpa Hnv Hshare Hd1 Hd2. split.
    + exact (plan_attribute_error _ _ _ (Some m1) _ _ _ _ m1 d1 Hmiss Hpa Hnv Hshare
               eq_refl Hd1).
    + exact (plan_attribute_error _ _ _ (Some m2) _ _ _ _ m2 d2 Hmiss Hpa Hnv Hshare
               eq_refl Hd2).
Qed.

End PlanResult.

(** ** Concrete runs *)

(** C1 fails for EPC: both deviations zero and equal means.  Whatever the
    t-test answers there without raising, [analyze_results] returns a normal
    analysis; the Welch statistic is 0/0, so the answer is NaN, and the
    analysis carries a NaN p-value and the verdict 0 instead of the failure
    value. *)
Lemma analyze_zero_variance_returns_nan :
  (forall (L : StatsLib) stat p_val,
     ttest_ind_from_stats (PFloat 5) (PFloat 0) (PInt 100) (PFloat 5) (PFloat 0) (PInt 100)
       = Ok (stat, p_val) ->
     analyze_results "epc" 0.05 (epc_kwargs 5 0 100 5 0 100) =
       (Ok (Some {| is_significant := if PrimFloat.ltb p_val 0.05 then 1 else 0;
                    p_value := float64_round4 p_val;
                    observed_diff := PFloat 0 |}), []))
  /\
  analyze_results (L := SpecModel.lib) "epc" 0.05 (epc_kwargs 5 0 100 5 0 100) =
    (Ok (Some {| is_significant := 0; p_value := nan; observed_diff := PFloat 0 |}), []).
Proof.
  split; [|vm_compute; reflexivity].
  intros L stat p_val Ht.
  apply (analyze_epc_returns 0.05 (epc_kwargs 5 0 100 5 0 100) 5 (PFloat 0) (PInt 100)
           5 (PFloat 0) (PInt 100) stat p_val); try (vm_compute; reflexivity).
  exact Ht.
Qed.

Lemma analyze_degenerate_requests_witness :
  exists e, analyze_results (L := SpecModel.lib) "cr" 0.05 (cr_kwargs 0 0 100 10)
            = (Ok None, [e]).
Proof.
  apply (proj1 (analyze_degenerate_requests (L := SpecModel.lib) 0.05
                  (cr_kwargs 0 0 100 10)) (PInt 0)).
  - right. vm_compute. reflexivity.
  - reflexivity.
Defined.

(** The reference library has no solver under the engine's name for it. *)
Lemma spec_model_solver_missing : solver_missing SpecModel.lib.
Proof. intros d a p r. reflexivity. Qed.

(** C2 fails: a relative MDE of -0.1 passes every check.  Whatever the
    libraries do, the call is the solver call at the effect size -0.5
    followed by the conversions, so nothing of the engine rejects the MDE;
    the call then ends in the AttributeError of line 64, which is not the
    InvalidParameter the claim promises. *)
Lemma plan_negative_mde_not_invalid_parameter :
  PrimFloat.leb (-0.1) 0 = true /\
  (forall L : StatsLib,
     calculate_sample_size "epc" 10 (Some 2%float) (Some (-0.1)%float) 0.8 0.05 0.8 1 =
       (n_control ← solve_nobs_two_indep (-0.5) 0.05 0.8 0.24999999999999994;
        c ← int_of_ceil n_control;
        v ← int_of_ceil (n_control * 0.24999999999999994)%float;
        Ok {| control_sample_size := c; variant_sample_size_per_variant := v |})) /\
  calculate_sample_size (L := SpecModel.lib) "epc" 10 (Some 2%float) (Some (-0.1)%float)
      0.8 0.05 0.8 1 =
    Raise (OtherError "AttributeError").
Proof.
  split; [reflexivity|]. split; [|vm_compute; reflexivity].
  intros L.
  destruct (plan_epc_pipeline (L := L) 10 2 (-0.1) 0.8 0.05 0.8 1) as (k & Hk & ->);
    try reflexivity.
  vm_compute in Hk. injection Hk as <-. reflexivity.
Qed.

Lemma plan_mde_sign_unchecked_witness :
  exists k,
    float_of_int 1 = Ok k /\
    calculate_sample_size (L := SpecModel.lib) "epc" 10 (Some 2%float) (Some (-0.1)%float)
        0.8 0.05 0.8 1 =
      (n_control ← solve_nobs_two_indep (StatsLib := SpecModel.lib) (10 * -0.1 / 2)%float
                     (0.05 / k)%float 0.8 ((1.0 - 0.8) / k / 0.8)%float;
       c ← int_of_ceil n_control;
       v ← int_of_ceil (n_control * ((1.0 - 0.8) / k / 0.8))%float;
       Ok {| control_sample_size := c; variant_sample_size_per_variant := v |}).
Proof.
  apply (proj1 (proj2 (proj2 (plan_mde_sign_unchecked (L := SpecModel.lib) "epc" 10
                                (Some 2%float) (Some (-0.1)%float) 0.8 0.05 0.8 1)))
           2%float (-0.1)%float); reflexivity.
Defined.

Lemma plan_raises_attribute_error_witness :
  calculate_sample_size (L := SpecModel.lib) "epc" 10 (Some 2%float) None 0.8 0.05 0.8 1 =
    Raise (OtherError "AttributeError").
Proof.
  apply (proj2 (plan_raises_attribute_error (L := SpecModel.lib) "epc" 10 (Some 2%float)
                  None 0.8 0.05 0.8 1 spec_model_solver_missing) 0.10%float 0.5%float);
    reflexivity.
Defined.

Lemma plan_mde_pair_raises_witness :
  calculate_sample_size (L := SpecModel.lib) "epc" 10 (Some 2%float) (Some 0.05%float)
      0.8 0.05 0.8 1 = Raise (OtherError "AttributeError") /\
  calculate_sample_size (L := SpecModel.lib) "epc" 10 (Some 2%float) (Some 0.10%float)
      0.8 0.05 0.8 1 = Raise (OtherError "AttributeError").
Proof.
  apply (proj2 (plan_mde_pair_raises (L := SpecModel.lib) "epc" 10 (Some 2%float)
                  0.8 0.05 0.8 1 0.05 0.10 spec_model_solver_missing) 0.25%float 0.5%float);
    reflexivity.
Defined.

Lemma verdict_from_unrounded_p_value_witness :
  exists stat p_val diff,
    test_returned (L := SpecModel.lib) "epc" (epc_kwargs 5 1 100 5 1 100) (stat, p_val) /\
    run_test (L := SpecModel.lib) "epc" (epc_kwargs 5 1 100 5 1 100)
      = Ok (Some (stat, p_val, diff)) /\
    (0 = 1 <-> PrimFloat.ltb p_val 0.05 = true) /\
    (0 = 0 <-> PrimFloat.ltb p_val 0.05 = false) /\
    0.5%float = float64_round4 (StatsLib := SpecModel.lib) p_val /\
    round4 diff = Ok (PFloat 0).
Proof.
  apply (verdict_from_unrounded_p_value (L := SpecModel.lib) "epc" 0.05
           (epc_kwargs 5 1 100 5 1 100)
           {| is_significant := 0; p_value := 0.5; observed_diff := PFloat 0 |}).
  vm_compute. reflexivity.
Defined.

Lemma plan_rejects_power_alpha_outside_unit_witness :
  calculate_sample_size (L := SpecModel.lib) "cr" 0.02 None None 1 0.05 0.8 1
    = Raise (ValueError msg_power_alpha).
Proof.
  apply (plan_rejects_power_alpha_outside_unit (L := SpecModel.lib)).
  right. left. reflexivity.
Defined.

Lemma plan_epc_without_std_is_invalid_witness :
  calculate_sample_size (L := SpecModel.lib) "epc" 10 None None 0.8 0.05 0.8 1 =
    Raise (ValueError (if in_open_unit 0.8 && in_open_unit 0.05
                       then msg_std_required else msg_power_alpha)).
Proof.
  apply (plan_epc_without_std_is_invalid (L := SpecModel.lib)); reflexivity.
Defined.

Lemma plan_epc_zero_std_as_missing_witness :
  calculate_sample_size (L := SpecModel.lib) "epc" 10 (Some 0%float) None 0.8 0.05 0.8 1 =
    calculate_sample_size (L := SpecModel.lib) "epc" 10 None None 0.8 0.05 0.8 1
  /\ (in_open_unit 0.8 && in_open_unit 0.05 = true ->
      usable_divisor 1 = true ->
      PrimFloat.eqb 0.8 0 = false ->
      calculate_sample_size (L := SpecModel.lib) "epc" 10 (Some 0%float) None 0.8 0.05 0.8 1 =
        Raise (ValueError msg_std_required))
  /\ (forall mde_absolute,
      effect_size_of (L := SpecModel.lib) "epc" 10 mde_absolute (Some 0%float)
        <> Raise ZeroDivisionError).
Proof.
  apply (plan_epc_zero_std_as_missing (L := SpecModel.lib) 10 0 None 0.8 0.05 0.8 1).
  reflexivity.
Defined.

Lemma analyze_unknown_metric_fails_witness :
  analyze_results (L := SpecModel.lib) "ctr" 0.05 (cr_kwargs 1000 20 1000 100)
    = (Ok None, [UnboundLocalError "p_val"]).
Proof.
  apply (analyze_unknown_metric_fails (L := SpecModel.lib)); discriminate.
Defined.

(** ** Further behaviour of the planner *)

Lemma float_div_int_zero (x : float) : float_div_int x 0 = Raise ZeroDivisionError.
Proof. reflexivity. Qed.

Lemma float_div_zero (x y : float) :
  PrimFloat.eqb y 0 = true -> float_div x y = Raise ZeroDivisionError.
Proof. unfold float_div. intros ->. reflexivity. Qed.

Lemma eqb_nan_zero (x : float) : PrimFloat.is_nan x = true -> PrimFloat.eqb x 0 = false.
Proof. intros H. rewrite FloatAxioms.eqb_spec, (is_nan_Prim2SF _ H). reflexivity. Qed.

Lemma div_nan_r (x y : float) : PrimFloat.is_nan y = true -> PrimFloat.is_nan (x / y) = true.
Proof.
  intros H. apply Prim2SF_nan. rewrite div_spec, (is_nan_Prim2SF _ H).
  destruct (Prim2SF x); reflexivity.
Qed.

Section PlanEdges.
Context {L : StatsLib}.

Lemma effect_size_of_other sm_type sm_control mde_absolute std :
  sm_type <> "cr"%string -> sm_type <> "epc"%string ->
  effect_size_of sm_type sm_control mde_absolute std = Raise (ValueError msg_bad_type).
Proof.
  intros Hcr Hepc. unfold effect_size_of.
  apply String.eqb_neq in Hcr, Hepc. rewrite Hcr, Hepc. reflexivity.
Qed.

(** X1. Leaving the relative MDE out is the same call as passing the
    metric's default: 0.05 for 'cr', 0.10 for 'epc', whatever the other
    arguments are. *)
Theorem plan_default_mde sm_control std power alpha share nv :
  calculate_sample_size "cr" sm_control std None power alpha share nv =
    calculate_sample_size "cr" sm_control std (Some 0.05%float) power alpha share nv
  /\
  calculate_sample_size "epc" sm_control std None power alpha share nv =
    calculate_sample_size "epc" sm_control std (Some 0.10%float) power alpha share nv.
Proof.
  split; unfold calculate_sample_size; destruct (negb _); try reflexivity;
    destruct (float_div_int alpha nv); simpl; try reflexivity;
    rewrite ?mde_mapping_cr, ?mde_mapping_epc; reflexivity.
Qed.

(** X2. A metric type other than 'cr' and 'epc' is a ValueError in a request
    that passes the power/alpha check and has a usable number of variants:
    "Unknown sm_type" when no MDE is given, and, when one is given and the
    control share is not zero, "sm_type must be 'cr' or 'epc'". *)
Theorem plan_unknown_metric sm_type sm_control std mde power alpha share nv :
  sm_type <> "cr"%string -> sm_type <> "epc"%string ->
  in_open_unit power && in_open_unit alpha = true ->
  usable_divisor nv = true ->
  match mde with
  | None =>
      calculate_sample_size sm_type sm_control std None power alpha share nv =
        Raise (ValueError (msg_unknown sm_type))
  | Some m =>
      PrimFloat.eqb share 0 = false ->
      calculate_sample_size sm_type sm_control std (Some m) power alpha share nv =
        Raise (ValueError msg_bad_type)
  end.
Proof.
  intros Hcr Hepc Hpa Hnv.
  destruct (float_div_int_usable alpha nv Hnv) as (k & Hk & Ha).
  destruct (float_div_int_usable (1.0 - share)%float nv Hnv) as (k' & Hk' & Hv).
  destruct mde as [m|].
  - intros Hshare. unfold calculate_sample_size. rewrite Hpa, Ha, Hv. simpl.
    rewrite (float_div_nonzero _ share Hshare). simpl.
    rewrite (effect_size_of_other _ _ _ _ Hcr Hepc). reflexivity.
  - unfold calculate_sample_size. rewrite Hpa, Ha. simpl.
    rewrite (mde_mapping_other _ Hcr Hepc). reflexivity.
Qed.

(** X3. Zero variants and a zero control share are not validated: they
    surface as ZeroDivisionError.  With power and alpha in range the
    division by zero variants comes before every other check; the division
    by a zero share comes once the MDE is resolved, before the metric type
    and the deviation are looked at. *)
Theorem plan_zero_division sm_type sm_control std mde m power alpha share nv :
  in_open_unit power && in_open_unit alpha = true ->
  calculate_sample_size sm_type sm_control std mde power alpha share 0 =
    Raise ZeroDivisionError
  /\
  (usable_divisor nv = true ->
   PrimFloat.eqb share 0 = true ->
   calculate_sample_size sm_type sm_control std (Some m) power alpha share nv =
     Raise ZeroDivisionError).
Proof.
  intros Hpa. split.
  - unfold calculate_sample_size. rewrite Hpa. reflexivity.
  - intros Hnv Hshare.
    destruct (float_div_int_usable alpha nv Hnv) as (k & Hk & Ha).
    destruct (float_div_int_usable (1.0 - share)%float nv Hnv) as (k' & Hk' & Hv).
    unfold calculate_sample_size. rewrite Hpa, Ha, Hv. simpl.
    rewrite (float_div_zero _ share Hshare). reflexivity.
Qed.

End PlanEdges.

Section PlanOutputs.
Context {L : StatsLib}.

(** X6. A NaN control deviation is truthy, so the check of line 58 lets it
    through: the solver is asked about a NaN effect size. *)
Theorem plan_nan_std_not_rejected sm_control std m power alpha share nv :
  PrimFloat.is_nan std = true ->
  in_open_unit power && in_open_unit alpha = true ->
  usable_divisor nv = true ->
  PrimFloat.eqb share 0 = false ->
  exists k d,
    float_of_int nv = Ok k /\
    PrimFloat.is_nan d = true /\
    calculate_sample_size "epc" sm_control (Some std) (Some m) power alpha share nv =
      (n_control ← solve_nobs_two_indep d (alpha / k)%float
                     power ((1.0 - share) / k / share)%float;
       c ← int_of_ceil n_control;
       v ← int_of_ceil (n_control * ((1.0 - share) / k / share))%float;
       Ok {| control_sample_size := c; variant_sample_size_per_variant := v |}).
Proof.
  intros Hnan Hpa Hnv Hshare.
  destruct (plan_epc_pipeline sm_control std m power alpha share nv Hpa Hnv Hshare
              (eqb_nan_zero _ Hnan)) as (k & Hk & Heq).
  exists k, (sm_control * m / std)%float.
  split; [exact Hk|]. split; [apply div_nan_r; exact Hnan | exact Heq].
Qed.

End PlanOutputs.

(** ** Further behaviour of the analyzer *)

(** The order on binary64 values: below-then-not-above composes. *)
Lemma SFltb_leb_trans (x y z : spec_float) :
  SFltb x y = true -> SFleb y z = true -> SFltb x z = true.
Proof.
  unfold SFltb, SFleb.
  destruct x as [sx|sx| |sx mx ex], y as [sy|sy| |sy my ey], z as [sz|sz| |sz mz ez];
    simpl; try discriminate; try reflexivity;
    try (destruct sx; simpl; try discriminate; try reflexivity);
    try (destruct sy; simpl; try discriminate; try reflexivity);
    try (destruct sz; simpl; try discriminate; try reflexivity);
    change (Pos.compare_cont Eq) with Pos.compare;
    repeat match goal with
           | |- context [Z.compare ?a ?b] => destruct (Z.compare_spec a b)
           | |- context [Pos.compare ?a ?b] => destruct (Pos.compare_spec a b)
           end;
    simpl; try discriminate; try reflexivity; intros; subst; try lia.
Qed.

Lemma ltb_leb_trans (p a1 a2 : float) :
  PrimFloat.ltb p a1 = true -> PrimFloat.leb a1 a2 = true -> PrimFloat.ltb p a2 = true.
Proof. rewrite !ltb_spec, leb_spec. apply SFltb_leb_trans. Qed.

Lemma ltb_nan_r (p alpha : float) : PrimFloat.is_nan alpha = true -> PrimFloat.ltb p alpha = false.
Proof.
  intros H. rewrite ltb_spec, (is_nan_Prim2SF _ H). unfold SFltb.
  destruct (Prim2SF p); reflexivity.
Qed.

(** A quotient is a float, and so is the difference of two floats. *)
Lemma truediv_Ok_float (a b v : pyval) : truediv a b = Ok v -> exists f, v = PFloat f.
Proof.
  destruct a as [|x|x|s], b as [|y|y|s']; simpl; try discriminate.
  - destruct (int_truediv x y); simpl; [intros [= <-]; eauto | discriminate].
  - destruct (float_of_int x); simpl; [|discriminate].
    destruct (float_div _ y); simpl; [intros [= <-]; eauto | discriminate].
  - destruct (float_of_int y); simpl; [|discriminate].
    destruct (float_div x _); simpl; [intros [= <-]; eauto | discriminate].
  - destruct (float_div x y); simpl; [intros [= <-]; eauto | discriminate].
Qed.

Section AnalyzerEdges.
Context {L : StatsLib}.

(** X7. A request that lacks a field of its metric ends in the failure
    value, and the error logged is the KeyError of the first field missing
    in the order the code reads them; the test routine is not reached. *)
Theorem analyze_missing_field sm_type alpha kwargs k :
  first_missing kwargs (fields_of sm_type) = Some k ->
  analyze_results sm_type alpha kwargs = (Ok None, [KeyError k]).
Proof.
  unfold analyze_results, analyze_body, run_test, fields_of, getitem.
  destruct (String.eqb sm_type "cr").
  - simpl first_missing.
    destruct (kwargs !! "variant_conv"%string); [|intros [= <-]; reflexivity].
    destruct (kwargs !! "control_conv"%string); [|intros [= <-]; reflexivity].
    destruct (kwargs !! "variant_n"%string); [|intros [= <-]; reflexivity].
    destruct (kwargs !! "control_n"%string); [|intros [= <-]; reflexivity].
    discriminate.
  - destruct (String.eqb sm_type "epc"); [|discriminate].
    simpl first_missing.
    destruct (kwargs !! "v_mean"%string); [|intros [= <-]; reflexivity].
    destruct (kwargs !! "v_std"%string); [|intros [= <-]; reflexivity].
    destruct (kwargs !! "v_n"%string); [|intros [= <-]; reflexivity].
    destruct (kwargs !! "c_mean"%string); [|intros [= <-]; reflexivity].
    destruct (kwargs !! "c_std"%string); [|intros [= <-]; reflexivity].
    destruct (kwargs !! "c_n"%string); [|intros [= <-]; reflexivity].
    discriminate.
Qed.

(** X8. An error raised inside the test routine (an ill-typed field, a
    numeric failure of the library) ends in the failure value with exactly
    that error logged; no difference is computed. *)
Theorem analyze_logs_library_error sm_type alpha kwargs e :
  test_outcome sm_type kwargs (Raise e) ->
  analyze_results sm_type alpha kwargs = (Ok None, [e]).
Proof.
  unfold test_outcome, analyze_results, analyze_body, run_test, getitem.
  intros [(-> & vc & cc & vn & cn & Hvc & Hcc & Hvn & Hcn & Ht)
         |(-> & vm & vs & vn & cm & cs & cn & Hvm & Hvs & Hvn & Hcm & Hcs & Hcn & Ht)].
  - change (String.eqb "cr" "cr") with true. cbv iota.
    rewrite Hvc, Hcc, Hvn, Hcn. simpl. rewrite Ht. reflexivity.
  - change (String.eqb "epc" "cr") with false. change (String.eqb "epc" "epc") with true.
    cbv iota. rewrite Hvm, Hvs, Hvn, Hcm, Hcs, Hcn. simpl. rewrite Ht. reflexivity.
Qed.

(** X9. The level alpha moves nothing but the verdict: two calls that
    differ only in alpha log the same errors, fail together, and when they
    return they report the same p-value and the same difference. *)
Theorem alpha_moves_only_verdict sm_type alpha alpha' kwargs :
  (analyze_results sm_type alpha kwargs).2 = (analyze_results sm_type alpha' kwargs).2 /\
  match (analyze_results sm_type alpha kwargs).1, (analyze_results sm_type alpha' kwargs).1 with
  | Ok (Some r), Ok (Some r') => report r = report r'
  | Ok None, Ok None => True
  | _, _ => False
  end.
Proof.
  unfold analyze_results, analyze_body.
  destruct (run_test sm_type kwargs) as [[[[stat p] d]|]|e]; simpl; auto.
  destruct (round4 d); simpl; auto.
Qed.

(** X10. An analysis reads only the fields of its metric: two keyword
    dictionaries that agree on them give the same outcome, whatever else
    they hold. *)
Theorem analyze_reads_only_its_fields sm_type alpha kwargs kwargs' :
  (forall k, In k (fields_of sm_type) -> kwargs !! k = kwargs' !! k) ->
  analyze_results sm_type alpha kwargs = analyze_results sm_type alpha kwargs'.
Proof.
  intros H. unfold analyze_results, analyze_body.
  assert (Hrun : run_test sm_type kwargs = run_test sm_type kwargs').
  { unfold run_test, getitem. unfold fields_of in H.
    destruct (String.eqb sm_type "cr").
    - rewrite (H "variant_conv"%string), (H "control_conv"%string),
        (H "variant_n"%string), (H "control_n"%string) by (simpl; tauto).
      reflexivity.
    - destruct (String.eqb sm_type "epc"); [|reflexivity].
      rewrite (H "v_mean"%string), (H "v_std"%string), (H "v_n"%string),
        (H "c_mean"%string), (H "c_std"%string), (H "c_n"%string) by (simpl; tauto).
      reflexivity. }
  rewrite Hrun. reflexivity.
Qed.

Lemma analyze_results_Some sm_type alpha kwargs r log :
  analyze_results sm_type alpha kwargs = (Ok (Some r), log) ->
  log = [] /\
  exists stat p_val diff,
    run_test sm_type kwargs = Ok (Some (stat, p_val, diff)) /\
    is_significant r = (if PrimFloat.ltb p_val alpha then 1 else 0) /\
    p_value r = float64_round4 p_val /\
    round4 diff = Ok (observed_diff r).
Proof.
  intros H.
  destruct (analyze_results_cases sm_type alpha kwargs) as [(r' & Hb & Hr) | (e & Hb & Hr)];
    rewrite Hr in H; [|discriminate].
  injection H as -> <-. split; [reflexivity|]. exact (analyze_body_Ok _ _ _ _ Hb).
Qed.

(** X11. The difference a CR analysis reports does not depend on the
    library: it is always a float, the two rates divided and subtracted in
    binary64 and rounded to four decimals. *)
Theorem analyze_cr_observed_diff alpha kwargs r log :
  analyze_results "cr" alpha kwargs = (Ok (Some r), log) ->
  exists variant_conv variant_n control_conv control_n variant_rate control_rate,
    kwargs !! "variant_conv"%string = Some variant_conv /\
    kwargs !! "variant_n"%string = Some variant_n /\
    kwargs !! "control_conv"%string = Some control_conv /\
    kwargs !! "control_n"%string = Some control_n /\
    truediv variant_conv variant_n = Ok (PFloat variant_rate) /\
    truediv control_conv control_n = Ok (PFloat control_rate) /\
    observed_diff r = PFloat (round4_float (variant_rate - control_rate)).
Proof.
  intros H. apply analyze_results_Some in H as (_ & stat & p & diff & Hrun & _ & _ & Hd).
  unfold run_test in Hrun. change (String.eqb "cr" "cr") with true in Hrun. cbv iota in Hrun.
  apply bind_Ok in Hrun as (vc0 & _ & Hrun). apply bind_Ok in Hrun as (cc0 & _ & Hrun).
  apply bind_Ok in Hrun as (vn0 & _ & Hrun). apply bind_Ok in Hrun as (cn0 & _ & Hrun).
  apply bind_Ok in Hrun as ([stat' p'] & _ & Hrun).
  apply bind_Ok in Hrun as (vc & Hvc & Hrun). apply bind_Ok in Hrun as (vn & Hvn & Hrun).
  apply bind_Ok in Hrun as (vr & Hvr & Hrun).
  apply bind_Ok in Hrun as (cc & Hcc & Hrun). apply bind_Ok in Hrun as (cn & Hcn & Hrun).
  apply bind_Ok in Hrun as (cr & Hcr & Hrun).
  apply bind_Ok in Hrun as (d & Hsub & Hrun). injection Hrun as _ _ ->.
  destruct (truediv_Ok_float _ _ _ Hvr) as (x & ->).
  destruct (truediv_Ok_float _ _ _ Hcr) as (y & ->).
  simpl in Hsub. injection Hsub as <-. simpl in Hd. injection Hd as <-.
  exists vc, vn, cc, cn, x, y. repeat split; auto using getitem_Ok.
Qed.

(** X12. An EPC analysis on integer means reports their exact integer
    difference: [round] leaves an int as it is. *)
Theorem analyze_epc_int_means alpha kwargs (a b : Z) r log :
  kwargs !! "v_mean"%string = Some (PInt a) ->
  kwargs !! "c_mean"%string = Some (PInt b) ->
  analyze_results "epc" alpha kwargs = (Ok (Some r), log) ->
  observed_diff r = PInt (a - b).
Proof.
  intros Hvm Hcm H.
  apply analyze_results_Some in H as (_ & stat & p & diff & Hrun & _ & _ & Hd).
  unfold run_test in Hrun.
  change (String.eqb "epc" "cr") with false in Hrun.
  change (String.eqb "epc" "epc") with true in Hrun. cbv iota in Hrun.
  unfold getitem in Hrun. rewrite Hvm, Hcm in Hrun.
  apply bind_Ok in Hrun as (vm & [= <-] & Hrun). apply bind_Ok in Hrun as (vs & _ & Hrun).
  apply bind_Ok in Hrun as (vn & _ & Hrun). apply bind_Ok in Hrun as (cm & [= <-] & Hrun).
  apply bind_Ok in Hrun as (cs & _ & Hrun). apply bind_Ok in Hrun as (cn & _ & Hrun).
  apply bind_Ok in Hrun as ([stat' p'] & _ & Hrun).
  simpl in Hrun. injection Hrun as _ _ <-. simpl in Hd. injection Hd as <-. reflexivity.
Qed.

(** X13. A result significant at one level is significant at every level
    that is not smaller, with the same reported p-value and difference. *)
Theorem significant_at_larger_level sm_type alpha alpha' kwargs r log :
  analyze_results sm_type alpha kwargs = (Ok (Some r), log) ->
  is_significant r = 1 ->
  PrimFloat.leb alpha alpha' = true ->
  exists r',
    analyze_results sm_type alpha' kwargs = (Ok (Some r'), []) /\
    is_significant r' = 1 /\ report r' = report r.
Proof.
  intros H Hsig Hle.
  apply analyze_results_Some in H as (_ & stat & p & diff & Hrun & Hv & Hp & Hd).
  rewrite Hv in Hsig. destruct (PrimFloat.ltb p alpha) eqn:Hlt; [|discriminate].
  pose proof (ltb_leb_trans _ _ _ Hlt Hle) as Hlt'.
  exists {| is_significant := 1; p_value := p_value r; observed_diff := observed_diff r |}.
  split; [|split; reflexivity].
  unfold analyze_results, analyze_body. rewrite Hrun. simpl.
  rewrite Hd, Hlt', Hp. reflexivity.
Qed.

(** X14. With a NaN level nothing is significant: every analysis that is
    returned has the verdict 0. *)
Theorem nan_level_never_significant sm_type alpha kwargs r log :
  PrimFloat.is_nan alpha = true ->
  analyze_results sm_type alpha kwargs = (Ok (Some r), log) ->
  is_significant r = 0.
Proof.
  intros Hnan H.
  apply analyze_results_Some in H as (_ & stat & p & diff & _ & Hv & _ & _).
  rewrite Hv, (ltb_nan_r _ _ Hnan). reflexivity.
Qed.

End AnalyzerEdges.

(** ** Concrete runs of the further behaviour *)

Lemma plan_unknown_metric_witness :
  calculate_sample_size (L := SpecModel.lib) "ctr" 0.02 None None 0.8 0.05 0.8 1 =
    Raise (ValueError (msg_unknown "ctr")).
Proof.
  apply (plan_unknown_metric (L := SpecModel.lib) "ctr" 0.02 None None 0.8 0.05 0.8 1);
    first [discriminate | reflexivity].
Defined.

Lemma plan_zero_division_witness :
  calculate_sample_size (L := SpecModel.lib) "cr" 0.02 None None 0.8 0.05 0.8 0 =
    Raise ZeroDivisionError
  /\
  (usable_divisor 1 = true ->
   PrimFloat.eqb 0 0 = true ->
   calculate_sample_size (L := SpecModel.lib) "cr" 0.02 None (Some 0.05%float) 0.8 0.05 0 1 =
     Raise ZeroDivisionError).
Proof.
  apply (plan_zero_division (L := SpecModel.lib) "cr" 0.02 None None 0.05 0.8 0.05 0 1).
  reflexivity.
Defined.

Lemma plan_nan_std_not_rejected_witness :
  exists k d,
    float_of_int 1 = Ok k /\
    PrimFloat.is_nan d = true /\
    calculate_sample_size (L := SpecModel.lib) "epc" 10 (Some nan) (Some 0.1%float)
        0.8 0.05 0.8 1 =
      (n_control ← solve_nobs_two_indep (StatsLib := SpecModel.lib) d (0.05 / k)%float
                     0.8 ((1.0 - 0.8) / k / 0.8)%float;
       c ← int_of_ceil n_control;
       v ← int_of_ceil (n_control * ((1.0 - 0.8) / k / 0.8))%float;
       Ok {| control_sample_size := c; variant_sample_size_per_variant := v |}).
Proof.
  apply (plan_nan_std_not_rejected (L := SpecModel.lib) 10 nan 0.1 0.8 0.05 0.8 1);
    reflexivity.
Defined.

Lemma analyze_missing_field_witness :
  analyze_results (L := SpecModel.lib) "cr" 0.05
      (kw [("variant_conv"%string, PInt 100); ("variant_n"%string, PInt 1000)]) =
    (Ok None, [KeyError "control_conv"]).
Proof.
  apply (analyze_missing_field (L := SpecModel.lib)). vm_compute. reflexivity.
Defined.

Lemma analyze_logs_library_error_witness :
  analyze_results (L := SpecModel.lib) "cr" 0.05
      (kw [("variant_conv"%string, PInt 100); ("control_conv"%string, PInt 20);
           ("variant_n"%string, PStr "many"); ("control_n"%string, PInt 1000)]) =
    (Ok None, [TypeError]).
Proof.
  apply (analyze_logs_library_error (L := SpecModel.lib)).
  left. split; [reflexivity|].
  exists (PInt 100), (PInt 20), (PStr "many"), (PInt 1000).
  repeat split; vm_compute; reflexivity.
Defined.

Lemma analyze_reads_only_its_fields_witness :
  analyze_results (L := SpecModel.lib) "cr" 0.05 (cr_kwargs 1000 20 1000 20) =
  analyze_results (L := SpecModel.lib) "cr" 0.05
    (<["campaign"%string := PStr "spring"]> (cr_kwargs 1000 20 1000 20)).
Proof.
  apply (analyze_reads_only_its_fields (L := SpecModel.lib)).
  intros k Hk. simpl in Hk.
  destruct Hk as [<- | [<- | [<- | [<- | []]]]]; vm_compute; reflexivity.
Defined.

Lemma analyze_cr_observed_diff_witness :
  exists variant_conv variant_n control_conv control_n variant_rate control_rate,
    cr_kwargs 1000 20 1000 20 !! "variant_conv"%string = Some variant_conv /\
    cr_kwargs 1000 20 1000 20 !! "variant_n"%string = Some variant_n /\
    cr_kwargs 1000 20 1000 20 !! "control_conv"%string = Some control_conv /\
    cr_kwargs 1000 20 1000 20 !! "control_n"%string = Some control_n /\
    truediv variant_conv variant_n = Ok (PFloat variant_rate) /\
    truediv control_conv control_n = Ok (PFloat control_rate) /\
    PFloat 0 = PFloat (round4_float (variant_rate - control_rate)).
Proof.
  apply (analyze_cr_observed_diff (L := SpecModel.lib) 0.05 (cr_kwargs 1000 20 1000 20)
           {| is_significant := 0; p_value := 0.5; observed_diff := PFloat 0 |} []).
  vm_compute. reflexivity.
Defined.

Lemma analyze_epc_int_means_witness : PInt 0 = PInt (5 - 5).
Proof.
  apply (analyze_epc_int_means (L := SpecModel.lib) 0.05
           (kw [("c_mean"%string, PInt 5); ("c_std"%string, PFloat 1);
                ("c_n"%string, PInt 100); ("v_mean"%string, PInt 5);
                ("v_std"%string, PFloat 1); ("v_n"%string, PInt 100)])
           5 5 {| is_significant := 0; p_value := 0.5; observed_diff := PInt 0 |} []);
    vm_compute; reflexivity.
Defined.

Lemma significant_at_larger_level_witness :
  exists r',
    analyze_results (L := SpecModel.lib) "epc" 0.1 (epc_kwargs 5 0 100 6 0 100)
      = (Ok (Some r'), []) /\
    is_significant r' = 1 /\
    report r' = report {| is_significant := 1; p_value := 0; observed_diff := PFloat 1 |}.
Proof.
  apply (significant_at_larger_level (L := SpecModel.lib) "epc" 0.05 0.1
           (epc_kwargs 5 0 100 6 0 100)
           {| is_significant := 1; p_value := 0; observed_diff := PFloat 1 |} []);
    vm_compute; reflexivity.
Defined.

Lemma nan_level_never_significant_witness :
  is_significant {| is_significant := 0; p_value := 0.5; observed_diff := PFloat 0 |} = 0.
Proof.
  apply (nan_level_never_significant (L := SpecModel.lib) "epc" nan
           (epc_kwargs 5 1 100 5 1 100)
           {| is_significant := 0; p_value := 0.5; observed_diff := PFloat 0 |} []);
    vm_compute; reflexivity.
Defined.
